(** * The transaction-processor test harness

    A shallow embedding of [sawtooth_processor_test/tester.py]: the class
    [TransactionProcessorTester], its exception [UnexpectedMessageException]
    and the module-level comparator [compare_set_request].

    Python objects become records, [self] becomes an explicit state that every
    method threads, a raised exception becomes an outcome of its own, and a
    read on a socket on which the peer has sent nothing is the outcome [Hang]
    (the harness has no timeout).  The calls to [print] are left out: they
    only write to the standard output. *)

From stdpp Require Import gmap strings list.

(** ** Data *)

(** A protobuf [Message] (validator_pb2), with its four fields.  [Bytes] is
    the type of serialized data.  A string field that the constructor receives
    as [None] is left at its default, the empty string. *)
Record Message (Bytes : Type) := mkMessage {
  message_type : string;
  correlation_id : string;
  sender : string;
  content : Bytes
}.
Arguments mkMessage {Bytes}.
Arguments message_type {Bytes}.
Arguments correlation_id {Bytes}.
Arguments sender {Bytes}.
Arguments content {Bytes}.

(** One entry of a state set request: what [e.address] and [e.data] read. *)
Record Entry := mkEntry {
  address : string;
  data : string
}.

(** The fields of [TransactionProcessorRegisterRequest] (processor_pb2) that
    [register_processor] reads. *)
Record TransactionProcessorRegisterRequest := mkRegisterRequest {
  family : string;
  version : string;
  encoding : string;
  namespaces : list string
}.

(** The exceptions the harness can end with.  [UnexpectedMessageException] is
    the class of the source, with its two attributes; the others are the
    built-in exceptions Python raises on the paths modelled here. *)
Inductive Exn (Payload : Type) :=
| UnexpectedMessageException (expected received : Payload)
| NameError (name : string)
| AttributeError (name : string)
| TypeError
| ValueError
| DecodeError.
Arguments UnexpectedMessageException {Payload}.
Arguments NameError {Payload}.
Arguments AttributeError {Payload}.
Arguments TypeError {Payload}.
Arguments ValueError {Payload}.
Arguments DecodeError {Payload}.

(** The result of a call that has no effect on the harness: a value or an
    exception. *)
Inductive Result (Payload A : Type) :=
| Val (a : A)
| Err (e : Exn Payload).
Arguments Val {Payload A}.
Arguments Err {Payload A}.

(** ** What the harness imports

    [to_message_type] and [to_protobuf_class] come from
    [sawtooth_processor_test.message_types], the serializers from the protobuf
    classes; none of them is in the tree, so the harness is modelled over any
    implementation of them.  [==] on two decoded payloads is the decidable
    equality of [Payload]. *)
Class Protobuf (Bytes Payload : Type) := {
  payload_eq_dec :: EqDecision Payload;
  (** [to_message_type(obj)]: the type tag of a payload. *)
  to_message_type : Payload → string;
  (** [to_protobuf_class(t)()] followed by [ParseFromString(b)]; [None] when
      one of the two raises. *)
  to_protobuf_class : string → Bytes → option Payload;
  (** [payload.SerializeToString()]. *)
  SerializeToString : Payload → Bytes;
  (** [Message().ParseFromString(b)]; [None] when it raises. *)
  Message_ParseFromString : Bytes → option (Message Bytes);
  (** [MessageList(messages=ms).SerializeToString()]. *)
  MessageList_SerializeToString : list (Message Bytes) → Bytes;
  (** [TransactionProcessorRegisterRequest().ParseFromString(b)]. *)
  RegisterRequest_ParseFromString :
    Bytes → option TransactionProcessorRegisterRequest;
  (** [req.entries]; [None] when the payload has no such attribute. *)
  entries : Payload → option (list Entry)
}.

#[global] Instance Entry_eq_dec : EqDecision Entry.
Proof. solve_decision. Defined.

(** A comparator is a Python callable of two payloads; per its contract it
    returns a boolean, and like any call it may raise. *)
Abbreviation Comparator Payload :=
  (Payload → Payload → Result Payload bool) (only parsing).

Section Tester.
Context {Bytes Payload : Type} `{!Protobuf Bytes Payload}.

(** The ROUTER socket, seen from the harness: the two-part frames
    [(ident, data)] the peer has sent and that are not read yet, oldest
    first, and the frames the harness has sent. *)
Record Socket := mkSocket {
  inbox : list (string * Bytes);
  outbox : list (string * Bytes)
}.

(** The attributes of a [TransactionProcessorTester].  [_socket] stands for
    [_context], [_socket] and [_loop], which [listen] sets together. *)
Record Tester := mkTester {
  _comparators : gmap string (Comparator Payload);
  _url : option string;
  _socket : option Socket;
  _tp_ident : option string
}.

(** How a method call ends: it returns, it raises, or it never returns.
    The first two carry [self] as the call leaves it. *)
Inductive Outcome (A : Type) :=
| Ok (a : A) (self : Tester)
| Raise (e : Exn Payload) (self : Tester)
| Hang.
Arguments Ok {A}.
Arguments Raise {A}.
Arguments Hang {A}.

Definition M (A : Type) : Type := Tester → Outcome A.

Definition ret {A} (a : A) : M A := λ self, Ok a self.

Definition raise {A} (e : Exn Payload) : M A := λ self, Raise e self.

Definition bind {A B} (m : M A) (k : A → M B) : M B :=
  λ self,
    match m self with
    | Ok a self' => k a self'
    | Raise e self' => Raise e self'
    | Hang => Hang
    end.

(** A call that reads [self] and leaves it as it is. *)
Definition call {A} (f : Tester → Result Payload A) : M A :=
  λ self,
    match f self with
    | Val a => Ok a self
    | Err e => Raise e self
    end.

(** A decoding step: [DecodeError] when the parser raises. *)
Definition parsed {A} (o : option A) : M A :=
  match o with
  | Some a => ret a
  | None => raise DecodeError
  end.

End Tester.

Arguments Ok {Bytes Payload A}.
Arguments Raise {Bytes Payload A}.
Arguments Hang {Bytes Payload A}.
Arguments Socket : clear implicits.
Arguments Tester : clear implicits.
Arguments mkSocket {Bytes}.
Arguments mkTester {Bytes Payload}.

Declare Scope tester_scope.
Delimit Scope tester_scope with tester.
Notation "x <- m ;; k" := (bind m (λ x, k))
  (at level 100, m at next level, right associativity) : tester_scope.

(** ** The methods of [TransactionProcessorTester] *)

Section Methods.
Context {Bytes Payload : Type} `{!Protobuf Bytes Payload}.
Local Open Scope tester_scope.

Local Abbreviation Tester := (Tester Bytes Payload).
Local Abbreviation Socket := (Socket Bytes).
Local Abbreviation M := (@M Bytes Payload).

(** [compare_set_request(req1, req2)]: the lengths of the two entry lists,
    then the two lists of [(address, data)] pairs. *)
Definition compare_set_request (req1 req2 : Payload) : Result Payload bool :=
  match entries req1 with
  | None => Err (AttributeError "entries")
  | Some es1 =>
    match entries req2 with
    | None => Err (AttributeError "entries")
    | Some es2 =>
      if negb (length es1 =? length es2) then Val false
      else
        let entries1 := (λ e, (address e, data e)) <$> es1 in
        let entries2 := (λ e, (address e, data e)) <$> es2 in
        if negb (bool_decide (entries1 = entries2)) then Val false
        else Val true
    end
  end.

(** [register_comparator(message_type, comparator)]. *)
Definition register_comparator (message_type : string)
    (comparator : Comparator Payload) : M () :=
  λ self,
    Ok () (mkTester (<[message_type := comparator]> (_comparators self))
                    (_url self) (_socket self) (_tp_ident self)).

(** [__init__]: every attribute empty, then the comparator of set requests
    is registered. *)
Definition __init__ : Tester :=
  let self := mkTester ∅ None None None in
  match register_comparator "state/setrequest" compare_set_request self with
  | Ok _ self' => self'
  | _ => self
  end.

(** [listen(url)]: binds a fresh socket. *)
Definition listen (url : string) : M () :=
  λ self,
    Ok () (mkTester (_comparators self) (Some url)
                    (Some (mkSocket [] [])) (_tp_ident self)).

(** [_receive()]: [recv_multipart] takes the oldest frame; with none it
    waits for ever. *)
Definition _receive : M (string * Bytes) :=
  λ self,
    match _socket self with
    | None => Raise (AttributeError "recv_multipart") self
    | Some sock =>
      match inbox sock with
      | [] => Hang
      | frame :: rest =>
        Ok frame (mkTester (_comparators self) (_url self)
                           (Some (mkSocket rest (outbox sock)))
                           (_tp_ident self))
      end
    end.

(** [receive()]: the loop must exist before the coroutine is run; the data
    part is parsed as a [Message] and the sender is set to the identity the
    socket reports. *)
Definition receive : M (Message Bytes) :=
  λ self,
    match _socket self with
    | None => Raise (AttributeError "run_until_complete") self
    | Some _ =>
      (frame <- _receive ;;
       let '(ident, result) := frame in
       message <- parsed (Message_ParseFromString result) ;;
       ret (mkMessage (message_type message) (correlation_id message)
                      ident (content message))) self
    end.

(** [_send(ident, message)]: [bytes(ident, 'UTF-8')] needs a string; the
    frame carries a [MessageList] with the one message. *)
Definition _send (ident : option string) (message : Message Bytes) : M () :=
  λ self,
    match ident with
    | None => Raise TypeError self
    | Some ident =>
      match _socket self with
      | None => Raise (AttributeError "send_multipart") self
      | Some sock =>
        Ok () (mkTester (_comparators self) (_url self)
                 (Some (mkSocket (inbox sock)
                    (outbox sock ++
                       [(ident, MessageList_SerializeToString [message])])))
                 (_tp_ident self))
      end
    end.

(** [send(message_content, correlation_id=None)]. *)
Definition send (message_content : Payload)
    (correlation_id : option string) : M () :=
  λ self,
    let message :=
      mkMessage (to_message_type message_content)
                (default "" correlation_id)
                "TransactionProcessorTester"
                (SerializeToString message_content) in
    match _socket self with
    | None => Raise (AttributeError "run_until_complete") self
    | Some _ => _send (_tp_ident self) message self
    end.

(** [respond(message_content, message)]. *)
Definition respond (message_content : Payload)
    (message : Message Bytes) : M () :=
  send message_content (Some (correlation_id message)).

(** [register_processor()]: the identity is bound before the request is
    parsed. *)
Definition register_processor : M bool :=
  message <- receive ;;
  if negb (bool_decide (message_type message = "tp/register")) then ret false
  else
    λ self,
      let self' := mkTester (_comparators self) (_url self) (_socket self)
                            (Some (sender message)) in
      (request <- parsed (RegisterRequest_ParseFromString (content message)) ;;
       ret true) self'.

(** [_compare(obj1, obj2)]: the comparator registered for the type of
    [obj1], or [==]. *)
Definition _compare (self : Tester) (obj1 obj2 : Payload)
    : Result Payload bool :=
  let msg_type := to_message_type obj1 in
  match _comparators self !! msg_type with
  | Some comparator => comparator obj1 obj2
  | None => Val (bool_decide (obj1 = obj2))
  end.

(** [expect(expected_content)]. *)
Definition expect (expected_content : Payload) : M (Message Bytes) :=
  message <- receive ;;
  received_content <-
    parsed (to_protobuf_class (message_type message) (content message)) ;;
  b <- call (λ self, _compare self received_content expected_content) ;;
  if negb b then
    raise (UnexpectedMessageException expected_content received_content)
  else ret message.

(** [l.index(x)]: the first position holding a value equal to [x]; [None]
    where Python raises [ValueError]. *)
Fixpoint list_index (x : Payload) (l : list Payload) : option nat :=
  match l with
  | [] => None
  | y :: l' => if bool_decide (y = x) then Some 0 else S <$> list_index x l'
  end.

(** The [for] loop of [expect_one] over the candidates still to try, and the
    statement after it: the name [expected_content] is bound nowhere in
    [expect_one] or in the module, so evaluating the arguments of the
    exception raises [NameError]. *)
Fixpoint expect_one_loop (message : Message Bytes)
    (received_content : Payload) (expected_content_list : list Payload)
    (remaining : list Payload) : M (Message Bytes * nat) :=
  match remaining with
  | [] => raise (NameError "expected_content")
  | exp_con :: remaining' =>
    b <- call (λ self, _compare self exp_con received_content) ;;
    if b then
      match list_index exp_con expected_content_list with
      | Some i => ret (message, i)
      | None => raise ValueError
      end
    else
      expect_one_loop message received_content expected_content_list
                      remaining'
  end.

(** [expect_one(expected_content_list)]. *)
Definition expect_one (expected_content_list : list Payload)
    : M (Message Bytes * nat) :=
  message <- receive ;;
  received_content <-
    parsed (to_protobuf_class (message_type message) (content message)) ;;
  expect_one_loop message received_content expected_content_list
                  expected_content_list.

End Methods.

(** ** The words of the specification

    Definitions that follow the specification, to state what it says of the
    methods above. *)

Section Specification.
Context {Bytes Payload : Type} `{!Protobuf Bytes Payload}.

(** The Envelope [receive] hands out for a wire message [m] read from the
    peer [ident]. *)
Definition envelope (ident : string) (m : Message Bytes) : Message Bytes :=
  mkMessage (message_type m) (correlation_id m) ident (content m).

(** The harness once the oldest frame of its socket [sock] is read, [rest]
    being the frames that follow it. *)
Definition after_read (self : Tester Bytes Payload) (sock : Socket Bytes)
    (rest : list (string * Bytes)) : Tester Bytes Payload :=
  mkTester (_comparators self) (_url self)
           (Some (mkSocket rest (outbox sock))) (_tp_ident self).


(** [accepts] holds of a candidate of [expect_one] when the check the loop
    makes on it returns true, [rejects] when it returns false. *)
Definition accepts (self : Tester Bytes Payload) (received candidate : Payload)
    : Prop :=
  _compare self candidate received = Val true.

Definition rejects (self : Tester Bytes Payload) (received candidate : Payload)
    : Prop :=
  _compare self candidate received = Val false.

(** The (address, data) pairs of a list of entries, in order. *)
Definition pairs (es : list Entry) : list (string * string) :=
  (λ e, (address e, data e)) <$> es.

(** The harness once it has sent [frames] on its socket [sock]. *)
Definition after_send (self : Tester Bytes Payload) (sock : Socket Bytes)
    (frames : list (string * Bytes)) : Tester Bytes Payload :=
  mkTester (_comparators self) (_url self)
           (Some (mkSocket (inbox sock) (outbox sock ++ frames)))
           (_tp_ident self).

(** The harness with the peer [ident] bound. *)
Definition bound_to (self : Tester Bytes Payload) (ident : string)
    : Tester Bytes Payload :=
  mkTester (_comparators self) (_url self) (_socket self) (Some ident).

(** The frame [send] puts on the socket for a payload: the peer it is
    addressed to and a [MessageList] of the one Envelope. *)
Definition sent_frame (ident : string) (message_content : Payload)
    (cid : string) : string * Bytes :=
  (ident,
   MessageList_SerializeToString
     [mkMessage (to_message_type message_content) cid
                "TransactionProcessorTester"
                (SerializeToString message_content)]).

End Specification.

(** ** A concrete harness

    An implementation of the imported functions on which the methods run:
    three payload classes, and serialized data represented by the value it
    encodes. *)

Module Example.

Inductive ExPayload :=
| TpRegisterRequest (r : TransactionProcessorRegisterRequest)
| TpStateSetRequest (es : list Entry)
| TpStateGetRequest (addresses : list string).

#[local] Unset Elimination Schemes.
Inductive ExBytes :=
| enc_payload (p : ExPayload)
| enc_message (m : Message ExBytes)
| enc_message_list (ms : list (Message ExBytes)).
#[local] Set Elimination Schemes.

#[global] Instance RegisterRequest_eq_dec :
  EqDecision TransactionProcessorRegisterRequest.
Proof. solve_decision. Defined.

#[global] Instance ExPayload_eq_dec : EqDecision ExPayload.
Proof. solve_decision. Defined.

Definition ex_message_type (p : ExPayload) : string :=
  match p with
  | TpRegisterRequest _ => "tp/register"
  | TpStateSetRequest _ => "state/setrequest"
  | TpStateGetRequest _ => "state/getrequest"
  end.

Definition ex_decode (t : string) (b : ExBytes) : option ExPayload :=
  match b with
  | enc_payload p =>
    if bool_decide (ex_message_type p = t) then Some p else None
  | _ => None
  end.

Definition ex_parse_message (b : ExBytes) : option (Message ExBytes) :=
  match b with
  | enc_message m => Some m
  | _ => None
  end.

Definition ex_parse_register (b : ExBytes)
    : option TransactionProcessorRegisterRequest :=
  match b with
  | enc_payload (TpRegisterRequest r) => Some r
  | _ => None
  end.

Definition ex_entries (p : ExPayload) : option (list Entry) :=
  match p with
  | TpStateSetRequest es => Some es
  | _ => None
  end.

#[global] Instance ex_protobuf : Protobuf ExBytes ExPayload := {|
  to_message_type := ex_message_type;
  to_protobuf_class := ex_decode;
  SerializeToString := enc_payload;
  Message_ParseFromString := ex_parse_message;
  MessageList_SerializeToString := enc_message_list;
  RegisterRequest_ParseFromString := ex_parse_register;
  entries := ex_entries
|}.

(** What the peer puts on the wire for a payload: a [Message] with the type
    tag of the payload, and the sender the peer claims to be. *)
Definition wire (cid claimed_sender : string) (p : ExPayload) : ExBytes :=
  enc_message
    (mkMessage (ex_message_type p) cid claimed_sender (enc_payload p)).

(** The harness after [__init__] and [listen], with the frames the peer has
    sent waiting on the socket and, possibly, an identity already bound. *)
Definition listening (frames : list (string * ExBytes))
    (tp_ident : option string) : Tester ExBytes ExPayload :=
  mkTester (_comparators __init__) (Some "127.0.0.1:5555")
           (Some (mkSocket frames [])) tp_ident.

Definition e1 : Entry := mkEntry "1cf126aa" "one".
Definition e2 : Entry := mkEntry "1cf126bb" "two".

Definition get_a : ExPayload := TpStateGetRequest ["1cf126aa"].
Definition get_b : ExPayload := TpStateGetRequest ["1cf126bb"].
Definition get_ab : ExPayload := TpStateGetRequest ["1cf126aa"; "1cf126bb"].

Definition set_12 : ExPayload := TpStateSetRequest [e1; e2].
Definition set_21 : ExPayload := TpStateSetRequest [e2; e1].

(** The wire message the peer sends for a payload, and the frame the socket
    reports for it. *)
Definition message_of (p : ExPayload) : Message ExBytes :=
  mkMessage (ex_message_type p) "abc123" "impostor" (enc_payload p).

Definition frame (p : ExPayload) : string * ExBytes :=
  ("peer", wire "abc123" "impostor" p).

Definition intkey : TransactionProcessorRegisterRequest :=
  mkRegisterRequest "intkey" "1.0" "protobuf" ["1cf126"].

(** A frame whose message is tagged as a registration and holds something
    else. *)
Definition bad_registration : string * ExBytes :=
  ("peer",
   enc_message (mkMessage "tp/register" "abc123" "impostor"
                          (enc_payload get_a))).

(** A comparator a test could register for get requests: every address the
    second payload asks for is asked for by the first. *)
Definition asks_for_all (obj1 obj2 : ExPayload) : Result ExPayload bool :=
  match obj1, obj2 with
  | TpStateGetRequest a1, TpStateGetRequest a2 =>
    Val (forallb (λ a, bool_decide (a ∈ a1)) a2)
  | _, _ => Val false
  end.

(** A comparator that accepts every registration. *)
Definition any_registration (obj1 obj2 : ExPayload) : Result ExPayload bool :=
  Val true.


End Example.

(** ** Properties *)

Section Properties.
Context {Bytes Payload : Type} `{!Protobuf Bytes Payload}.
Implicit Types (self : Tester Bytes Payload) (sock : Socket Bytes).
Implicit Types (m message : Message Bytes) (l : list Payload).
Implicit Types (P received e : Payload).

Ltac run := unfold bind, call, parsed, ret, raise; simpl.

(** *** Reading one frame *)

Lemma receive_frame self sock ident wire rest m :
  _socket self = Some sock →
  inbox sock = (ident, wire) :: rest →
  Message_ParseFromString wire = Some m →
  receive self = Ok (envelope ident m) (after_read self sock rest).
Proof.
  intros Hsock Hinbox Hparse.
  unfold receive, _receive. rewrite Hsock. run.
  rewrite Hsock, Hinbox. simpl. by rewrite Hparse.
Qed.

Lemma _compare_after_read self sock rest obj1 obj2 :
  _compare (after_read self sock rest) obj1 obj2 = _compare self obj1 obj2.
Proof. reflexivity. Qed.

(** The check of [expect], once the frame is read and decoded. *)
Lemma expect_frame self sock ident wire rest m P' P :
  _socket self = Some sock →
  inbox sock = (ident, wire) :: rest →
  Message_ParseFromString wire = Some m →
  to_protobuf_class (message_type m) (content m) = Some P' →
  expect P self =
    match _compare self P' P with
    | Val true => Ok (envelope ident m) (after_read self sock rest)
    | Val false =>
      Raise (UnexpectedMessageException P P') (after_read self sock rest)
    | Err x => Raise x (after_read self sock rest)
    end.
Proof.
  intros Hsock Hinbox Hparse Hdec.
  unfold expect, bind at 1.
  rewrite (receive_frame _ _ _ _ _ _ Hsock Hinbox Hparse).
  simpl. rewrite Hdec. run.
  rewrite _compare_after_read.
  by destruct (_compare self P' P) as [[]|].
Qed.

(** *** The loop of [expect_one] *)


Lemma expect_one_loop_rejected self message received all remaining :
  Forall (rejects self received) remaining →
  expect_one_loop message received all remaining self =
    Raise (NameError "expected_content") self.
Proof.
  induction 1 as [|e remaining He _ IH]; [done|].
  simpl. run. unfold rejects in He. by rewrite He.
Qed.


Lemma expect_one_frame self sock ident wire rest m received l :
  _socket self = Some sock →
  inbox sock = (ident, wire) :: rest →
  Message_ParseFromString wire = Some m →
  to_protobuf_class (message_type m) (content m) = Some received →
  expect_one l self =
    expect_one_loop (envelope ident m) received l l
                    (after_read self sock rest).
Proof.
  intros Hsock Hinbox Hparse Hdec.
  unfold expect_one, bind at 1.
  rewrite (receive_frame _ _ _ _ _ _ Hsock Hinbox Hparse).
  simpl. by rewrite Hdec.
Qed.


(** With no accepted candidate the statement after the loop runs, and it
    raises [NameError]. *)
Lemma expect_one_no_match self sock ident wire rest m received l :
  _socket self = Some sock →
  inbox sock = (ident, wire) :: rest →
  Message_ParseFromString wire = Some m →
  to_protobuf_class (message_type m) (content m) = Some received →
  Forall (rejects self received) l →
  expect_one l self =
    Raise (NameError "expected_content") (after_read self sock rest).
Proof.
  intros Hsock Hinbox Hparse Hdec Hall.
  rewrite (expect_one_frame _ _ _ _ _ _ _ _ Hsock Hinbox Hparse Hdec).
  by apply expect_one_loop_rejected.
Qed.

(** *** What [expect] checks *)

(** C1. Let the peer's next frame decode to the payload [P'], of a type for
    which the comparator [C] is registered, and let [C(P', P)] return a
    boolean.  Then [expect(P)] returns the received Envelope if and only if
    [C(P', P)] is true, and when it is false [expect(P)] raises an
    [UnexpectedMessageException] whose [expected] is [P] and whose [received]
    is the decoded [P']. *)
Theorem expect_registered_comparator
    self sock ident wire rest m (P' P : Payload) (C : Comparator Payload) :
  _socket self = Some sock →
  inbox sock = (ident, wire) :: rest →
  Message_ParseFromString wire = Some m →
  to_protobuf_class (message_type m) (content m) = Some P' →
  _comparators self !! to_message_type P' = Some C →
  (∃ b, C P' P = Val b) →
  (expect P self = Ok (envelope ident m) (after_read self sock rest)
     ↔ C P' P = Val true)
  ∧ (C P' P = Val false →
     expect P self =
       Raise (UnexpectedMessageException P P') (after_read self sock rest)).
Proof.
  intros Hsock Hinbox Hparse Hdec HC [b Hb].
  rewrite (expect_frame _ _ _ _ _ _ _ _ Hsock Hinbox Hparse Hdec).
  unfold _compare; cbv zeta. rewrite HC, Hb.
  destruct b; split; done.
Qed.

(** C8. Let the peer's next frame decode to the payload [P'], of a type for
    which no comparator is registered.  Then [expect(P)] returns the received
    Envelope if and only if [P' == P], and raises an
    [UnexpectedMessageException] for [P] and [P'] when they differ. *)
Theorem expect_default_equality self sock ident wire rest m (P' P : Payload) :
  _socket self = Some sock →
  inbox sock = (ident, wire) :: rest →
  Message_ParseFromString wire = Some m →
  to_protobuf_class (message_type m) (content m) = Some P' →
  _comparators self !! to_message_type P' = None →
  (expect P self = Ok (envelope ident m) (after_read self sock rest)
     ↔ P' = P)
  ∧ (P' ≠ P →
     expect P self =
       Raise (UnexpectedMessageException P P') (after_read self sock rest)).
Proof.
  intros Hsock Hinbox Hparse Hdec HC.
  rewrite (expect_frame _ _ _ _ _ _ _ _ Hsock Hinbox Hparse Hdec).
  unfold _compare; cbv zeta. rewrite HC.
  case_bool_decide as Heq; split; done.
Qed.

(** *** What [expect_one] returns *)


(** *** Which comparator is applied, and to what *)



(** *** The comparator of set requests *)

Lemma pairs_eq_positional (E1 E2 : list Entry) :
  pairs E1 = pairs E2 ↔
  length E1 = length E2 ∧
  ∀ i x1 x2, E1 !! i = Some x1 → E2 !! i = Some x2 →
             (address x1, data x1) = (address x2, data x2).
Proof.
  unfold pairs. split.
  - intros Heq. split.
    + apply (f_equal length) in Heq. by rewrite !length_fmap in Heq.
    + intros i x1 x2 H1 H2.
      apply (f_equal (λ p, p !! i)) in Heq.
      rewrite !list_lookup_fmap, H1, H2 in Heq. simpl in Heq. congruence.
  - intros [Hlen Hpos]. apply list_eq. intros i.
    rewrite !list_lookup_fmap.
    destruct (E1 !! i) as [x1|] eqn:H1, (E2 !! i) as [x2|] eqn:H2; simpl.
    + f_equal. by apply (Hpos i).
    + apply lookup_lt_Some in H1. apply lookup_ge_None in H2. lia.
    + apply lookup_ge_None in H1. apply lookup_lt_Some in H2. lia.
    + done.
Qed.

Lemma compare_set_request_entries req1 req2 (E1 E2 : list Entry) :
  entries req1 = Some E1 →
  entries req2 = Some E2 →
  compare_set_request req1 req2 = Val (bool_decide (pairs E1 = pairs E2)).
Proof.
  intros H1 H2. unfold compare_set_request. rewrite H1, H2.
  destruct (length E1 =? length E2) eqn:Hlen; simpl.
  - fold (pairs E1) (pairs E2). by case_bool_decide.
  - apply Nat.eqb_neq in Hlen.
    rewrite bool_decide_eq_false_2; [done|].
    intros Heq. by apply pairs_eq_positional in Heq as [? _].
Qed.

(** C5. For two set requests with entry sequences [E1] and [E2],
    [compare_set_request] returns true if and only if the sequences have the
    same length and the (address, data) pairs at every index are equal;
    otherwise it returns false: on a length mismatch, on a difference at
    some position, and on a reordering of the same pairs. *)
Theorem compare_set_request_positional req1 req2 (E1 E2 : list Entry) :
  entries req1 = Some E1 →
  entries req2 = Some E2 →
  (compare_set_request req1 req2 = Val true ↔
     length E1 = length E2 ∧
     ∀ i x1 x2, E1 !! i = Some x1 → E2 !! i = Some x2 →
                (address x1, data x1) = (address x2, data x2))
  ∧ (compare_set_request req1 req2 = Val false ↔
     ¬ (length E1 = length E2 ∧
        ∀ i x1 x2, E1 !! i = Some x1 → E2 !! i = Some x2 →
                   (address x1, data x1) = (address x2, data x2)))
  ∧ (length E1 ≠ length E2 → compare_set_request req1 req2 = Val false)
  ∧ (∀ i x1 x2, E1 !! i = Some x1 → E2 !! i = Some x2 →
       (address x1, data x1) ≠ (address x2, data x2) →
       compare_set_request req1 req2 = Val false)
  ∧ (pairs E1 ≡ₚ pairs E2 → pairs E1 ≠ pairs E2 →
     compare_set_request req1 req2 = Val false).
Proof.
  intros H1 H2. rewrite (compare_set_request_entries _ _ _ _ H1 H2).
  rewrite <- pairs_eq_positional.
  case_bool_decide as Heq; repeat split; try done.
  - intros Hlen. by apply pairs_eq_positional in Heq as [? _].
  - intros i x1 x2 Hx1 Hx2 Hne.
    apply pairs_eq_positional in Heq as [_ Hpos].
    by destruct (Hne (Hpos i x1 x2 Hx1 Hx2)).
Qed.

(** C10. [compare_set_request] gives the same result with its two
    arguments exchanged; so, while it is the comparator registered for set
    requests, the check of [expect], on (actual, expected), and the check of
    [expect_one], on (expected, actual), agree on two set requests. *)
Theorem compare_set_request_symmetric (a b : Payload) :
  compare_set_request a b = compare_set_request b a
  ∧ (∀ self,
     _comparators self !! "state/setrequest" = Some compare_set_request →
     to_message_type a = "state/setrequest" →
     to_message_type b = "state/setrequest" →
     _compare self a b = _compare self b a).
Proof.
  assert (compare_set_request a b = compare_set_request b a) as Hsym.
  { unfold compare_set_request.
    destruct (entries a) as [E1|], (entries b) as [E2|]; try done.
    rewrite (Nat.eqb_sym (length E2)).
    destruct (length E1 =? length E2); simpl; [|done].
    repeat case_bool_decide; simpl; congruence. }
  split; [done|].
  intros self Hreg Ha Hb. unfold _compare; cbv zeta.
  by rewrite Ha, Hb, Hreg.
Qed.

(** *** Framing and registration *)

(** C9. [receive] returns the wire message of the frame it reads with the
    sender replaced by the identity the socket reports for that frame,
    whatever sender the wire message carried. *)
Theorem receive_sender self sock ident wire rest m :
  _socket self = Some sock →
  inbox sock = (ident, wire) :: rest →
  Message_ParseFromString wire = Some m →
  ∃ env,
    receive self = Ok env (after_read self sock rest)
    ∧ sender env = ident
    ∧ message_type env = message_type m
    ∧ correlation_id env = correlation_id m
    ∧ content env = content m.
Proof.
  intros Hsock Hinbox Hparse. exists (envelope ident m).
  by rewrite (receive_frame _ _ _ _ _ _ Hsock Hinbox Hparse).
Qed.

(** C7. With a peer bound, [respond(payload, env)] sends one frame to that
    peer; the Envelope in it carries the type tag and the serialization of
    [payload], the name of the class as sender, and the correlation id of
    [env], unchanged. *)
Theorem respond_correlation_id self sock ident (payload : Payload)
    (env : Message Bytes) :
  _socket self = Some sock →
  _tp_ident self = Some ident →
  ∃ out,
    respond payload env self =
      Ok () (mkTester (_comparators self) (_url self)
               (Some (mkSocket (inbox sock)
                  (outbox sock ++
                     [(ident, MessageList_SerializeToString [out])])))
               (_tp_ident self))
    ∧ correlation_id out = correlation_id env
    ∧ message_type out = to_message_type payload
    ∧ content out = SerializeToString payload
    ∧ sender out = "TransactionProcessorTester".
Proof.
  intros Hsock Hident.
  exists (mkMessage (to_message_type payload) (correlation_id env)
                    "TransactionProcessorTester" (SerializeToString payload)).
  unfold respond, send, _send. by rewrite Hsock, Hident.
Qed.

(** C6. When the first message read is not of type ["tp/register"],
    [register_processor] returns false and the bound identity is the one
    there was before, none if there was none; and if the next message is a
    registration, a second call returns true and binds the identity of its
    sender. *)
Theorem register_processor_mismatch self sock ident wire rest m :
  _socket self = Some sock →
  inbox sock = (ident, wire) :: rest →
  Message_ParseFromString wire = Some m →
  message_type m ≠ "tp/register" →
  register_processor self = Ok false (after_read self sock rest)
  ∧ _tp_ident (after_read self sock rest) = _tp_ident self
  ∧ (∀ ident2 wire2 rest2 m2 request,
     rest = (ident2, wire2) :: rest2 →
     Message_ParseFromString wire2 = Some m2 →
     message_type m2 = "tp/register" →
     RegisterRequest_ParseFromString (content m2) = Some request →
     ∃ self2,
       register_processor (after_read self sock rest) = Ok true self2
       ∧ _tp_ident self2 = Some ident2).
Proof.
  intros Hsock Hinbox Hparse Hty. split; [|split].
  - unfold register_processor, bind.
    rewrite (receive_frame _ _ _ _ _ _ Hsock Hinbox Hparse). simpl.
    by rewrite bool_decide_eq_false_2.
  - done.
  - intros ident2 wire2 rest2 m2 request -> Hparse2 Hty2 Hreq.
    eexists. unfold register_processor, bind at 1.
    erewrite receive_frame; [|reflexivity|reflexivity|exact Hparse2].
    simpl. rewrite bool_decide_eq_true_2 by done. simpl.
    rewrite Hreq. run. done.
Qed.

End Properties.

(** ** More of the harness

    Properties of the methods beyond the claims: the registry, the calls made
    too early, sending, the handshake, and what a check leaves behind. *)

Section Behaviour.
Context {Bytes Payload : Type} `{!Protobuf Bytes Payload}.
Implicit Types (self : Tester Bytes Payload) (sock : Socket Bytes).
Implicit Types (m message : Message Bytes) (l : list Payload).
Implicit Types (P received : Payload).

Ltac step := unfold bind, call, parsed, ret, raise; simpl.

(** *** The registry of comparators *)

(** X1. [register_comparator(T, C)] always returns; from then on the check
    on a first argument of type [T] is [C], whatever was registered for [T]
    before, the check on the other types is what it was, and the socket and
    the bound identity are untouched. *)
Theorem register_comparator_replaces self (T : string)
    (C : Comparator Payload) :
  ∃ self',
    register_comparator T C self = Ok () self'
    ∧ (∀ obj1 obj2, to_message_type obj1 = T →
         _compare self' obj1 obj2 = C obj1 obj2)
    ∧ (∀ obj1 obj2, to_message_type obj1 ≠ T →
         _compare self' obj1 obj2 = _compare self obj1 obj2)
    ∧ _socket self' = _socket self
    ∧ _tp_ident self' = _tp_ident self
    ∧ _url self' = _url self.
Proof.
  eexists. split; [reflexivity|]. repeat split.
  - intros obj1 obj2 <-. unfold _compare; simpl.
    by rewrite lookup_insert_eq.
  - intros obj1 obj2 Hne. unfold _compare; simpl.
    by rewrite lookup_insert_ne.
Qed.

(** X2. The last registration for a type wins: registering [C1] and then
    [C2] for the same type leaves the harness as registering [C2] alone
    does.  Registrations for two different types can be made in either
    order. *)
Theorem register_comparator_last_wins self (T1 T2 : string)
    (C1 C2 : Comparator Payload) :
  bind (register_comparator T1 C1) (λ _, register_comparator T1 C2) self
    = register_comparator T1 C2 self
  ∧ (T1 ≠ T2 →
     bind (register_comparator T1 C1) (λ _, register_comparator T2 C2) self
       = bind (register_comparator T2 C2)
              (λ _, register_comparator T1 C1) self).
Proof.
  split.
  - unfold bind, register_comparator; simpl. by rewrite insert_insert_eq.
  - intros Hne. unfold bind, register_comparator; simpl.
    by rewrite insert_insert_ne.
Qed.

(** X3. A harness fresh from [__init__] has one comparator: it compares
    payloads of type ["state/setrequest"] with [compare_set_request] and all
    the others with [==].  No peer is bound and no socket is open. *)
Theorem fresh_harness_compare (obj1 obj2 : Payload) :
  _compare (__init__ (Bytes:=Bytes)) obj1 obj2 =
    (if bool_decide (to_message_type obj1 = "state/setrequest")
     then compare_set_request obj1 obj2
     else Val (bool_decide (obj1 = obj2)))
  ∧ _tp_ident (__init__ (Bytes:=Bytes) (Payload:=Payload)) = None
  ∧ _socket (__init__ (Bytes:=Bytes) (Payload:=Payload)) = None.
Proof.
  split; [|done].
  assert (_comparators (__init__ (Bytes:=Bytes) (Payload:=Payload))
          = <["state/setrequest" := compare_set_request]> ∅) as Hinit
    by reflexivity.
  unfold _compare; cbv zeta. rewrite Hinit.
  destruct (decide (to_message_type obj1 = "state/setrequest")) as [Hty|Hty].
  - rewrite (bool_decide_eq_true_2 _ Hty). by rewrite Hty, lookup_insert_eq.
  - rewrite (bool_decide_eq_false_2 _ Hty).
    rewrite lookup_insert_ne by done. by rewrite lookup_empty.
Qed.

(** *** Calls made too early *)

(** X4. Before [listen] there is no event loop: [send], [respond],
    [receive], [expect], [expect_one] and [register_processor] raise
    [AttributeError] and leave the harness as it was. *)
Theorem before_listen self :
  _socket self = None →
  (∀ P cid,
     send P cid self = Raise (AttributeError "run_until_complete") self)
  ∧ (∀ P m,
     respond P m self = Raise (AttributeError "run_until_complete") self)
  ∧ receive self = Raise (AttributeError "run_until_complete") self
  ∧ (∀ P,
     expect P self = Raise (AttributeError "run_until_complete") self)
  ∧ (∀ l,
     expect_one l self = Raise (AttributeError "run_until_complete") self)
  ∧ register_processor self
      = Raise (AttributeError "run_until_complete") self.
Proof.
  intros Hsock.
  assert (receive self = Raise (AttributeError "run_until_complete") self)
    as Hrecv by (unfold receive; by rewrite Hsock).
  repeat split.
  - intros P cid. unfold send. by rewrite Hsock.
  - intros P m. unfold respond, send. by rewrite Hsock.
  - done.
  - intros P. unfold expect, bind at 1. by rewrite Hrecv.
  - intros l. unfold expect_one, bind at 1. by rewrite Hrecv.
  - unfold register_processor, bind at 1. by rewrite Hrecv.
Qed.

(** X5. After [listen] and before a processor has registered, [send] and
    [respond] raise [TypeError], the identity to address being [None], and
    nothing is put on the socket. *)
Theorem send_without_peer self sock :
  _socket self = Some sock →
  _tp_ident self = None →
  (∀ P cid, send P cid self = Raise TypeError self)
  ∧ (∀ P m, respond P m self = Raise TypeError self).
Proof.
  intros Hsock Hident. split.
  - intros P cid. unfold send, _send. by rewrite Hsock, Hident.
  - intros P m. unfold respond, send, _send. by rewrite Hsock, Hident.
Qed.

(** X6. With the socket open and nothing sent by the peer, [receive],
    [expect], [expect_one] and [register_processor] never return: there is no
    timeout. *)
Theorem nothing_to_read self sock :
  _socket self = Some sock →
  inbox sock = [] →
  receive self = Hang
  ∧ (∀ P, expect P self = Hang)
  ∧ (∀ l, expect_one l self = Hang)
  ∧ register_processor self = Hang.
Proof.
  intros Hsock Hinbox.
  assert (receive self = Hang) as Hrecv.
  { unfold receive, _receive. rewrite Hsock. step. by rewrite Hsock, Hinbox. }
  repeat split.
  - done.
  - intros P. unfold expect, bind at 1. by rewrite Hrecv.
  - intros l. unfold expect_one, bind at 1. by rewrite Hrecv.
  - unfold register_processor, bind at 1. by rewrite Hrecv.
Qed.

(** *** Sending *)

(** X7. With a peer bound, [send] puts one frame on the socket, addressed
    to that peer, holding the one Envelope; without a correlation id the
    Envelope carries the empty one.  Two sends put their frames in the order
    of the calls, after what was sent before; the frames to read, the
    registry and the bound peer stay as they were. *)
Theorem send_in_order self sock ident (P1 P2 : Payload)
    (cid1 cid2 : option string) :
  _socket self = Some sock →
  _tp_ident self = Some ident →
  send P1 None self = Ok () (after_send self sock [sent_frame ident P1 ""])
  ∧ bind (send P1 cid1) (λ _, send P2 cid2) self
    = Ok () (after_send self sock
               [sent_frame ident P1 (default "" cid1);
                sent_frame ident P2 (default "" cid2)]).
Proof.
  destruct self as [cmps url so id]; simpl. intros -> ->. split.
  - reflexivity.
  - unfold bind, send, _send, after_send, sent_frame; simpl.
    by rewrite <- app_assoc.
Qed.

(** *** The handshake *)

(** X8. When the message read is a registration whose request parses,
    [register_processor] returns true and binds the identity the socket
    reports for the frame, whatever identity was bound before and whatever
    sender the message claims; the sends that follow are addressed to it. *)
Theorem register_processor_binds self sock ident wire rest m
    (request : TransactionProcessorRegisterRequest) :
  _socket self = Some sock →
  inbox sock = (ident, wire) :: rest →
  Message_ParseFromString wire = Some m →
  message_type m = "tp/register" →
  RegisterRequest_ParseFromString (content m) = Some request →
  register_processor self
    = Ok true (bound_to (after_read self sock rest) ident)
  ∧ (∀ P cid,
     send P cid (bound_to (after_read self sock rest) ident)
       = Ok () (after_send (bound_to (after_read self sock rest) ident)
                           (mkSocket rest (outbox sock))
                           [sent_frame ident P (default "" cid)])).
Proof.
  intros Hsock Hinbox Hparse Hty Hreq. split.
  - unfold register_processor, bind at 1.
    rewrite (receive_frame _ _ _ _ _ _ Hsock Hinbox Hparse). simpl.
    rewrite bool_decide_eq_true_2 by done. simpl.
    rewrite Hreq. by step.
  - intros P cid. reflexivity.
Qed.

(** X9. When the message read is a registration whose request does not
    parse, [register_processor] raises the parser's error, and the identity
    of the sender is bound all the same: the assignment comes before the
    parsing. *)
Theorem register_processor_bad_request self sock ident wire rest m :
  _socket self = Some sock →
  inbox sock = (ident, wire) :: rest →
  Message_ParseFromString wire = Some m →
  message_type m = "tp/register" →
  RegisterRequest_ParseFromString (content m) = None →
  register_processor self
    = Raise DecodeError (bound_to (after_read self sock rest) ident)
  ∧ _tp_ident (bound_to (after_read self sock rest) ident) = Some ident.
Proof.
  intros Hsock Hinbox Hparse Hty Hreq. split; [|done].
  unfold register_processor, bind at 1.
  rewrite (receive_frame _ _ _ _ _ _ Hsock Hinbox Hparse). simpl.
  rewrite bool_decide_eq_true_2 by done. simpl.
  rewrite Hreq. by step.
Qed.

(** *** What a check leaves behind *)

Lemma receive_consumes self sock frame rest :
  _socket self = Some sock →
  inbox sock = frame :: rest →
  (∃ m, receive self = Ok m (after_read self sock rest))
  ∨ (∃ x, receive self = Raise x (after_read self sock rest)).
Proof.
  intros Hsock Hinbox. unfold receive, _receive. rewrite Hsock. step.
  rewrite Hsock, Hinbox. simpl. destruct frame as [ident wire].
  destruct (Message_ParseFromString wire) as [m|]; simpl; eauto.
Qed.

Lemma expect_one_loop_state message received all remaining self :
  (∃ r, expect_one_loop message received all remaining self = Ok r self)
  ∨ (∃ x, expect_one_loop message received all remaining self
            = Raise x self).
Proof.
  induction remaining as [|c remaining IH]; simpl.
  - right. by eexists.
  - step. destruct (_compare self c received) as [[]|x]; [|done|eauto].
    destruct (list_index c all); simpl; eauto.
Qed.

(** X10. With a frame to read, [receive], [expect] and [expect_one] take
    exactly the oldest frame off the socket whether they return or raise, a
    failed check included, and change nothing else: nothing is sent, and the
    registry and the bound peer are as before. *)
Theorem check_consumes_frame self sock (frame : string * Bytes) rest :
  _socket self = Some sock →
  inbox sock = frame :: rest →
  ((∃ m, receive self = Ok m (after_read self sock rest))
   ∨ (∃ x, receive self = Raise x (after_read self sock rest)))
  ∧ (∀ P,
     (∃ m, expect P self = Ok m (after_read self sock rest))
     ∨ (∃ x, expect P self = Raise x (after_read self sock rest)))
  ∧ (∀ l,
     (∃ r, expect_one l self = Ok r (after_read self sock rest))
     ∨ (∃ x, expect_one l self = Raise x (after_read self sock rest))).
Proof.
  intros Hsock Hinbox.
  pose proof (receive_consumes self sock frame rest Hsock Hinbox) as Hrecv.
  split; [done|]. split.
  - intros P. unfold expect, bind, call, parsed, ret, raise.
    destruct Hrecv as [[m ->]|[x ->]]; [|eauto].
    destruct (to_protobuf_class (message_type m) (content m)) as [P'|];
      [|eauto].
    destruct (_compare (after_read self sock rest) P' P) as [[]|x];
      simpl; eauto.
  - intros l. unfold expect_one, bind, parsed, ret, raise.
    destruct Hrecv as [[m ->]|[x ->]]; [|eauto].
    destruct (to_protobuf_class (message_type m) (content m)) as [P'|];
      [|eauto].
    apply expect_one_loop_state.
Qed.

(** X11. On a harness that compares set requests with
    [compare_set_request], a set request checked against a payload without
    entries, or a payload without entries checked as a set request, makes
    [expect] raise [AttributeError], not [UnexpectedMessageException]. *)
Theorem expect_without_entries self sock ident wire rest m (P' P : Payload) :
  _socket self = Some sock →
  inbox sock = (ident, wire) :: rest →
  Message_ParseFromString wire = Some m →
  to_protobuf_class (message_type m) (content m) = Some P' →
  _comparators self !! to_message_type P' = Some compare_set_request →
  entries P' = None ∨ entries P = None →
  expect P self
    = Raise (AttributeError "entries") (after_read self sock rest).
Proof.
  intros Hsock Hinbox Hparse Hdec HC Hent.
  rewrite (expect_frame _ _ _ _ _ _ _ _ Hsock Hinbox Hparse Hdec).
  unfold _compare; cbv zeta. rewrite HC. unfold compare_set_request.
  destruct Hent as [->| ->]; [done|].
  by destruct (entries P').
Qed.

(** *** [expect_one] again *)

Lemma list_index_Some (x : Payload) l i :
  list_index x l = Some i → l !! i = Some x.
Proof.
  revert i. induction l as [|y l IH]; intros i; simpl; [done|].
  case_bool_decide as Hy.
  - intros [= <-]. by rewrite Hy.
  - destruct (list_index x l) as [k|]; simpl; [|done].
    intros [= <-]. by apply IH.
Qed.

Lemma expect_one_loop_returns message received all remaining self r self' :
  expect_one_loop message received all remaining self = Ok r self' →
  ∃ c i,
    r = (message, i) ∧ self' = self ∧ c ∈ remaining
    ∧ _compare self c received = Val true ∧ list_index c all = Some i.
Proof.
  induction remaining as [|c remaining IH]; simpl; [done|].
  step. destruct (_compare self c received) as [[]|x] eqn:Hc; [| |done].
  - destruct (list_index c all) as [i|] eqn:Hi; simpl; [|done].
    intros [= <- <-]. exists c, i. repeat split; try done. apply list_elem_of_here.
  - intros Hloop. destruct (IH Hloop) as (c' & i & ? & ? & ? & ? & ?).
    exists c', i. repeat split; try done. by apply list_elem_of_further.
Qed.

(** X12. Whatever the comparators do, a pair that [expect_one] returns is
    sound: the Envelope is the one received, the index is inside the list,
    and the candidate at that index is one its check accepts. *)
Theorem expect_one_sound self sock ident wire rest m received l
    (r : Message Bytes * nat) self' :
  _socket self = Some sock →
  inbox sock = (ident, wire) :: rest →
  Message_ParseFromString wire = Some m →
  to_protobuf_class (message_type m) (content m) = Some received →
  expect_one l self = Ok r self' →
  r.1 = envelope ident m
  ∧ self' = after_read self sock rest
  ∧ r.2 < length l
  ∧ ∃ c, l !! r.2 = Some c ∧ accepts self received c.
Proof.
  intros Hsock Hinbox Hparse Hdec.
  rewrite (expect_one_frame _ _ _ _ _ _ _ _ Hsock Hinbox Hparse Hdec).
  intros Hloop.
  apply expect_one_loop_returns in Hloop
    as (c & i & -> & -> & _ & Hacc & Hi).
  apply list_index_Some in Hi. simpl. repeat split.
  - by eapply lookup_lt_Some.
  - by exists c.
Qed.

Lemma expect_one_loop_default message received all remaining self :
  (∀ c, c ∈ remaining → _comparators self !! to_message_type c = None) →
  expect_one_loop message received all remaining self =
    match list_index received remaining with
    | Some _ =>
      match list_index received all with
      | Some k => Ok (message, k) self
      | None => Raise ValueError self
      end
    | None => Raise (NameError "expected_content") self
    end.
Proof.
  induction remaining as [|c remaining IH]; intros Hnone; simpl; [done|].
  step. unfold _compare at 1; cbv zeta.
  rewrite (Hnone c) by apply list_elem_of_here.
  case_bool_decide as Hc; simpl.
  - rewrite Hc. by destruct (list_index received all).
  - rewrite IH by (intros c' Hc'; apply Hnone; by apply list_elem_of_further).
    by destruct (list_index received remaining).
Qed.

(** X13. When no comparator is registered for the type of any candidate,
    [expect_one] returns the position of the first candidate equal to the
    decoded payload, and raises [NameError] when the payload is not in the
    list. *)
Theorem expect_one_default_equality self sock ident wire rest m received l :
  _socket self = Some sock →
  inbox sock = (ident, wire) :: rest →
  Message_ParseFromString wire = Some m →
  to_protobuf_class (message_type m) (content m) = Some received →
  (∀ c, c ∈ l → _comparators self !! to_message_type c = None) →
  expect_one l self =
    match list_index received l with
    | Some i => Ok (envelope ident m, i) (after_read self sock rest)
    | None =>
      Raise (NameError "expected_content") (after_read self sock rest)
    end.
Proof.
  intros Hsock Hinbox Hparse Hdec Hnone.
  rewrite (expect_one_frame _ _ _ _ _ _ _ _ Hsock Hinbox Hparse Hdec).
  rewrite expect_one_loop_default by done.
  by destruct (list_index received l).
Qed.

(** *** The comparator of set requests, again *)

(** X14. On payloads that carry entries [compare_set_request] is an
    equivalence: it accepts a payload against itself, and when it accepts
    [a] against [b] and [b] against [c] it accepts [a] against [c]. *)
Theorem compare_set_request_equivalence (a b c : Payload)
    (Ea Eb Ec : list Entry) :
  entries a = Some Ea →
  entries b = Some Eb →
  entries c = Some Ec →
  compare_set_request a a = Val true
  ∧ (compare_set_request a b = Val true →
     compare_set_request b c = Val true →
     compare_set_request a c = Val true).
Proof.
  intros Ha Hb Hc.
  rewrite (compare_set_request_entries _ _ _ _ Ha Ha),
    (compare_set_request_entries _ _ _ _ Ha Hb),
    (compare_set_request_entries _ _ _ _ Hb Hc),
    (compare_set_request_entries _ _ _ _ Ha Hc).
  split.
  - by rewrite bool_decide_eq_true_2.
  - intros [= Hab%bool_decide_eq_true] [= Hbc%bool_decide_eq_true].
    rewrite bool_decide_eq_true_2; [done|congruence].
Qed.

(** X15. A comparator registered for the type of the payload that arrives
    is the one the next [expect] applies, to the decoded payload first and
    the expected one second, whatever was registered for that type before:
    [expect] returns the Envelope when the comparator returns true, raises
    [UnexpectedMessageException] when it returns false, and raises what the
    comparator raises. *)
Theorem register_comparator_then_expect self sock ident wire rest m
    (P' P : Payload) (C : Comparator Payload) :
  _socket self = Some sock →
  inbox sock = (ident, wire) :: rest →
  Message_ParseFromString wire = Some m →
  to_protobuf_class (message_type m) (content m) = Some P' →
  ∃ self1,
    register_comparator (to_message_type P') C self = Ok () self1
    ∧ bind (register_comparator (to_message_type P') C) (λ _, expect P) self
      = match C P' P with
        | Val true => Ok (envelope ident m) (after_read self1 sock rest)
        | Val false =>
          Raise (UnexpectedMessageException P P') (after_read self1 sock rest)
        | Err x => Raise x (after_read self1 sock rest)
        end.
Proof.
  intros Hsock Hinbox Hparse Hdec.
  eexists. split; [reflexivity|].
  unfold bind at 1, register_comparator at 1.
  rewrite (expect_frame _ sock ident wire rest m P' P); try done.
  unfold _compare; simpl. by rewrite lookup_insert_eq.
Qed.

End Behaviour.

(** ** The properties on the concrete harness *)

Import Example.

(** C1 at work: the peer sends a set request with the entries in the order
    [e2, e1], [e1, e2] is expected, and the registered comparator is
    [compare_set_request]. *)
Lemma expect_registered_comparator_witness :
  (expect set_12 (listening [frame set_21] None)
     = Ok (envelope "peer" (message_of set_21))
          (after_read (listening [frame set_21] None)
                      (mkSocket [frame set_21] []) [])
   ↔ compare_set_request set_21 set_12 = Val true)
  ∧ (compare_set_request set_21 set_12 = Val false →
     expect set_12 (listening [frame set_21] None)
       = Raise (UnexpectedMessageException set_12 set_21)
               (after_read (listening [frame set_21] None)
                           (mkSocket [frame set_21] []) [])).
Proof.
  apply (expect_registered_comparator
           (listening [frame set_21] None) (mkSocket [frame set_21] [])
           "peer" (wire "abc123" "impostor" set_21) [] (message_of set_21)
           set_21 set_12 compare_set_request);
    [reflexivity | reflexivity | reflexivity | reflexivity
    | vm_compute; reflexivity | exists false; vm_compute; reflexivity].
Defined.

(** C8 at work: a get request, a type without a comparator, received where
    another get request is expected. *)
Lemma expect_default_equality_witness :
  (expect get_b (listening [frame get_a] None)
     = Ok (envelope "peer" (message_of get_a))
          (after_read (listening [frame get_a] None)
                      (mkSocket [frame get_a] []) [])
   ↔ get_a = get_b)
  ∧ (get_a ≠ get_b →
     expect get_b (listening [frame get_a] None)
       = Raise (UnexpectedMessageException get_b get_a)
               (after_read (listening [frame get_a] None)
                           (mkSocket [frame get_a] []) [])).
Proof.
  apply (expect_default_equality
           (listening [frame get_a] None) (mkSocket [frame get_a] [])
           "peer" (wire "abc123" "impostor" get_a) [] (message_of get_a)
           get_a get_b);
    [reflexivity | reflexivity | reflexivity | reflexivity
    | vm_compute; reflexivity].
Defined.


(** C2: what [expect_one] does when no candidate matches, on a list of one
    candidate and on the empty list: it raises [NameError], not
    [UnexpectedMessageException]. *)
Theorem expect_one_no_match_raises_NameError :
  expect_one [get_b] (listening [frame get_a] None)
    = Raise (NameError "expected_content") (listening [] None)
  ∧ expect_one [] (listening [frame get_a] None)
    = Raise (NameError "expected_content") (listening [] None).
Proof. split; vm_compute; reflexivity. Qed.



(** C5 at work: the same two pairs in the same order, and swapped. *)
Lemma compare_set_request_positional_witness :
  compare_set_request set_12 set_12 = Val true
  ∧ compare_set_request set_12 set_21 = Val false.
Proof.
  split.
  - apply (@compare_set_request_positional ExBytes ExPayload ex_protobuf
             set_12 set_12 [e1; e2] [e1; e2]
             ltac:(reflexivity) ltac:(reflexivity)).
    split; [reflexivity|]. intros i x1 x2 Hx1 Hx2. congruence.
  - apply (@compare_set_request_positional ExBytes ExPayload ex_protobuf
             set_12 set_21 [e1; e2] [e2; e1]
             ltac:(reflexivity) ltac:(reflexivity)).
    + apply perm_swap.
    + intros Heq. discriminate Heq.
Defined.

(** C10 at work, on the harness as [__init__] leaves it. *)
Lemma compare_set_request_symmetric_witness :
  compare_set_request set_12 set_21 = compare_set_request set_21 set_12
  ∧ _compare __init__ set_12 set_21 = _compare __init__ set_21 set_12.
Proof.
  destruct (@compare_set_request_symmetric ExBytes ExPayload ex_protobuf
              set_12 set_21) as [H1 H2].
  split; [exact H1|].
  apply (H2 __init__); [vm_compute; reflexivity | reflexivity | reflexivity].
Defined.

(** C9 at work: the wire message says it comes from ["impostor"], the
    socket says ["peer"]. *)
Lemma receive_sender_witness :
  sender (message_of get_a) = "impostor"
  ∧ ∃ env,
      receive (listening [frame get_a] None) = Ok env (listening [] None)
      ∧ sender env = "peer"
      ∧ message_type env = "state/getrequest"
      ∧ correlation_id env = "abc123"
      ∧ content env = enc_payload get_a.
Proof.
  split; [reflexivity|].
  apply (receive_sender
           (listening [frame get_a] None) (mkSocket [frame get_a] [])
           "peer" (wire "abc123" "impostor" get_a) [] (message_of get_a)
           ltac:(reflexivity) ltac:(reflexivity) ltac:(reflexivity)).
Defined.

(** C7 at work: a response to the Envelope received with the correlation id
    ["abc123"]. *)
Lemma respond_correlation_id_witness :
  ∃ out,
    respond get_b (envelope "peer" (message_of get_a))
            (listening [] (Some "peer"))
      = Ok () (mkTester (_comparators __init__) (Some "127.0.0.1:5555")
                 (Some (mkSocket [] [("peer", enc_message_list [out])]))
                 (Some "peer"))
    ∧ correlation_id out = "abc123"
    ∧ message_type out = "state/getrequest"
    ∧ content out = enc_payload get_b
    ∧ sender out = "TransactionProcessorTester".
Proof.
  apply (respond_correlation_id
           (listening [] (Some "peer")) (mkSocket [] []) "peer" get_b
           (envelope "peer" (message_of get_a))
           ltac:(reflexivity) ltac:(reflexivity)).
Defined.

(** C6 at work: a get request arrives before the registration. *)
Lemma register_processor_mismatch_witness :
  register_processor
      (listening [frame get_a; frame (TpRegisterRequest intkey)] None)
    = Ok false (listening [frame (TpRegisterRequest intkey)] None)
  ∧ ∃ self2,
      register_processor (listening [frame (TpRegisterRequest intkey)] None)
        = Ok true self2
      ∧ _tp_ident self2 = Some "peer".
Proof.
  destruct (register_processor_mismatch
              (listening [frame get_a; frame (TpRegisterRequest intkey)] None)
              (mkSocket [frame get_a; frame (TpRegisterRequest intkey)] [])
              "peer" (wire "abc123" "impostor" get_a)
              [frame (TpRegisterRequest intkey)] (message_of get_a)
              ltac:(reflexivity) ltac:(reflexivity) ltac:(reflexivity))
    as (H1 & _ & H3).
  - intros Hty. discriminate Hty.
  - split; [exact H1|].
    apply (H3 "peer" (wire "abc123" "impostor" (TpRegisterRequest intkey))
              [] (message_of (TpRegisterRequest intkey)) intkey
              ltac:(reflexivity) ltac:(reflexivity) ltac:(reflexivity) ltac:(reflexivity)).
Defined.

(** ** More of the harness, on the concrete one *)

(** X1 at work: [asks_for_all] registered for get requests. *)
Lemma register_comparator_replaces_witness :
  ∃ self',
    register_comparator "state/getrequest" asks_for_all (listening [] None)
      = Ok () self'
    ∧ _compare self' get_ab get_a = asks_for_all get_ab get_a
    ∧ _compare self' set_12 set_21 = _compare (listening [] None) set_12 set_21.
Proof.
  destruct (register_comparator_replaces
              (listening [] None) "state/getrequest" asks_for_all)
    as (self' & H1 & H2 & H3 & _).
  exists self'. split; [exact H1|]. split.
  - apply H2. reflexivity.
  - apply H3. intros Hty. discriminate Hty.
Defined.

(** X2 at work: two comparators for get requests, and one for get requests
    with one for registrations. *)
Lemma register_comparator_last_wins_witness :
  bind (register_comparator "state/getrequest" any_registration)
       (λ _, register_comparator "state/getrequest" asks_for_all)
       (listening [] None)
    = register_comparator "state/getrequest" asks_for_all (listening [] None)
  ∧ bind (register_comparator "state/getrequest" asks_for_all)
         (λ _, register_comparator "tp/register" any_registration)
         (listening [] None)
    = bind (register_comparator "tp/register" any_registration)
           (λ _, register_comparator "state/getrequest" asks_for_all)
           (listening [] None).
Proof.
  split.
  - apply (register_comparator_last_wins
             (listening [] None) "state/getrequest" "tp/register"
             any_registration asks_for_all).
  - apply (register_comparator_last_wins
             (listening [] None) "state/getrequest" "tp/register"
             asks_for_all any_registration).
    intros Hty. discriminate Hty.
Defined.

(** X4 at work: the harness as [__init__] leaves it. *)
Lemma before_listen_witness :
  send get_a None __init__
    = Raise (AttributeError "run_until_complete") __init__
  ∧ expect get_a __init__
    = Raise (AttributeError "run_until_complete") __init__
  ∧ register_processor (Bytes:=ExBytes) (Payload:=ExPayload) __init__
    = Raise (AttributeError "run_until_complete") __init__.
Proof.
  destruct (before_listen (Payload:=ExPayload) __init__ ltac:(reflexivity))
    as (H1 & _ & _ & H4 & _ & H6).
  split; [apply H1|]. split; [apply H4|exact H6].
Defined.

(** X5 at work: listening, nobody registered. *)
Lemma send_without_peer_witness :
  send get_a (Some "abc123") (listening [] None)
    = Raise TypeError (listening [] None)
  ∧ respond get_a (message_of get_b) (listening [] None)
    = Raise TypeError (listening [] None).
Proof.
  destruct (send_without_peer (listening [] None) (mkSocket [] [])
              ltac:(reflexivity) ltac:(reflexivity)) as [H1 H2].
  split; [apply H1|apply H2].
Defined.

(** X6 at work: listening, nothing sent by the peer. *)
Lemma nothing_to_read_witness :
  receive (listening [] None) = Hang
  ∧ expect get_a (listening [] None) = Hang
  ∧ expect_one [get_a; get_b] (listening [] None) = Hang
  ∧ register_processor (listening [] None) = Hang.
Proof.
  destruct (nothing_to_read (listening [] None) (mkSocket [] [])
              ltac:(reflexivity) ltac:(reflexivity)) as (H1 & H2 & H3 & H4).
  split; [exact H1|]. split; [apply H2|]. split; [apply H3|exact H4].
Defined.

(** X7 at work: two sends to the bound peer. *)
Lemma send_in_order_witness :
  send get_a None (listening [] (Some "peer"))
    = Ok () (after_send (listening [] (Some "peer")) (mkSocket [] [])
               [sent_frame "peer" get_a ""])
  ∧ bind (send get_a (Some "abc123")) (λ _, send get_b None)
         (listening [] (Some "peer"))
    = Ok () (after_send (listening [] (Some "peer")) (mkSocket [] [])
               [sent_frame "peer" get_a "abc123";
                sent_frame "peer" get_b ""]).
Proof.
  apply (send_in_order (listening [] (Some "peer")) (mkSocket [] []) "peer"
           get_a get_b (Some "abc123") None
           ltac:(reflexivity) ltac:(reflexivity)).
Defined.

(** X8 at work: a registration read while another peer is bound. *)
Lemma register_processor_binds_witness :
  register_processor
      (listening [frame (TpRegisterRequest intkey)] (Some "old-peer"))
    = Ok true (listening [] (Some "peer"))
  ∧ send get_a None (listening [] (Some "peer"))
    = Ok () (after_send (listening [] (Some "peer")) (mkSocket [] [])
               [sent_frame "peer" get_a ""]).
Proof.
  destruct (register_processor_binds
              (listening [frame (TpRegisterRequest intkey)] (Some "old-peer"))
              (mkSocket [frame (TpRegisterRequest intkey)] [])
              "peer" (wire "abc123" "impostor" (TpRegisterRequest intkey))
              [] (message_of (TpRegisterRequest intkey)) intkey
              ltac:(reflexivity) ltac:(reflexivity) ltac:(reflexivity)
              ltac:(reflexivity) ltac:(reflexivity)) as [H1 H2].
  split; [exact H1|]. apply (H2 get_a None).
Defined.

(** X9 at work: a registration whose content is a get request. *)
Lemma register_processor_bad_request_witness :
  register_processor (listening [bad_registration] None)
    = Raise DecodeError (listening [] (Some "peer")).
Proof.
  apply (register_processor_bad_request
           (listening [bad_registration] None)
           (mkSocket [bad_registration] []) "peer" (bad_registration.2) []
           (mkMessage "tp/register" "abc123" "impostor" (enc_payload get_a))
           ltac:(reflexivity) ltac:(reflexivity) ltac:(reflexivity)
           ltac:(reflexivity) ltac:(reflexivity)).
Defined.

(** X10 at work: one frame waiting. *)
Lemma check_consumes_frame_witness :
  ((∃ m, expect get_b (listening [frame get_a] None)
           = Ok m (listening [] None))
   ∨ (∃ x, expect get_b (listening [frame get_a] None)
             = Raise x (listening [] None)))
  ∧ ((∃ r, expect_one [get_b] (listening [frame get_a] None)
             = Ok r (listening [] None))
     ∨ (∃ x, expect_one [get_b] (listening [frame get_a] None)
               = Raise x (listening [] None))).
Proof.
  destruct (check_consumes_frame
              (listening [frame get_a] None) (mkSocket [frame get_a] [])
              (frame get_a) [] ltac:(reflexivity) ltac:(reflexivity))
    as (_ & H2 & H3).
  split; [apply (H2 get_b)|apply (H3 [get_b])].
Defined.

(** X11 at work: a set request arrives where a get request is expected. *)
Lemma expect_without_entries_witness :
  expect get_a (listening [frame set_12] None)
    = Raise (AttributeError "entries") (listening [] None).
Proof.
  apply (expect_without_entries
           (listening [frame set_12] None) (mkSocket [frame set_12] [])
           "peer" (wire "abc123" "impostor" set_12) [] (message_of set_12)
           set_12 get_a
           ltac:(reflexivity) ltac:(reflexivity) ltac:(reflexivity)
           ltac:(reflexivity) ltac:(vm_compute; reflexivity)).
  right. reflexivity.
Defined.

(** X12 at work: the pair returned for [[get_b; get_a]]. *)
Lemma expect_one_sound_witness :
  ∃ c, [get_b; get_a] !! 1 = Some c
       ∧ accepts (listening [frame get_a] None) get_a c.
Proof.
  apply (expect_one_sound
           (listening [frame get_a] None) (mkSocket [frame get_a] [])
           "peer" (wire "abc123" "impostor" get_a) [] (message_of get_a)
           get_a [get_b; get_a]
           (envelope "peer" (message_of get_a), 1) (listening [] None)
           ltac:(reflexivity) ltac:(reflexivity) ltac:(reflexivity)
           ltac:(reflexivity) ltac:(vm_compute; reflexivity)).
Defined.

(** X13 at work: three get requests, the second equal to the one received. *)
Lemma expect_one_default_equality_witness :
  expect_one [get_b; get_a; get_ab] (listening [frame get_a] None)
    = Ok (envelope "peer" (message_of get_a), 1) (listening [] None).
Proof.
  apply (expect_one_default_equality
           (listening [frame get_a] None) (mkSocket [frame get_a] [])
           "peer" (wire "abc123" "impostor" get_a) [] (message_of get_a)
           get_a [get_b; get_a; get_ab]
           ltac:(reflexivity) ltac:(reflexivity) ltac:(reflexivity)
           ltac:(reflexivity)).
  intros c Hc.
  repeat (apply elem_of_cons in Hc as [->|Hc]; [vm_compute; reflexivity|]).
  by apply elem_of_nil in Hc.
Defined.

(** X14 at work: the set request [set_12]. *)
Lemma compare_set_request_equivalence_witness :
  compare_set_request set_12 set_12 = Val true
  ∧ (compare_set_request set_12 set_12 = Val true →
     compare_set_request set_12 set_12 = Val true →
     compare_set_request set_12 set_12 = Val true).
Proof.
  apply (@compare_set_request_equivalence ExBytes ExPayload ex_protobuf
           set_12 set_12 set_12 [e1; e2] [e1; e2] [e1; e2]
           ltac:(reflexivity) ltac:(reflexivity) ltac:(reflexivity)).
Defined.

(** X15 at work: [asks_for_all] is registered, then a get request for one
    address arrives where one for two addresses is expected. *)
Lemma register_comparator_then_expect_witness :
  ∃ self1,
    register_comparator "state/getrequest" asks_for_all
        (listening [frame get_a] None) = Ok () self1
    ∧ bind (register_comparator "state/getrequest" asks_for_all)
           (λ _, expect get_ab) (listening [frame get_a] None)
      = Raise (UnexpectedMessageException get_ab get_a)
              (after_read self1 (mkSocket [frame get_a] []) []).
Proof.
  apply (register_comparator_then_expect
           (listening [frame get_a] None) (mkSocket [frame get_a] [])
           "peer" (wire "abc123" "impostor" get_a) [] (message_of get_a)
           get_a get_ab asks_for_all
           ltac:(reflexivity) ltac:(reflexivity) ltac:(reflexivity)
           ltac:(reflexivity)).
Defined.
